(** * The rustdoc implementors index for [core::marker::Send]

    A verification development for
    [src/implementors/core/marker/trait.Send.js], the script rustdoc emits
    next to the documentation of the crate [ak09915_rs]:

    <<
    (function() {var implementors = {
    "ak09915_rs":[ ... ],
    "embedded_hal":[ ... ],
    "void":[ ... ]
    };if (window.register_implementors) {window.register_implementors(implementors);}
      else {window.pending_implementors = implementors;}})()
    >>

    The file has two parts: an object literal (the table) and one
    [if]/[else] statement that hands the table to the documentation page.
    Both are embedded here: the literal as a JavaScript value, the statement
    as a program in a small state, trace and exception monad over the
    properties of [window]. *)

From Stdlib Require Import PrimFloat FloatOps SpecFloat Ascii.
From stdpp Require Import gmap strings list pretty.

(** ** JavaScript values *)

Module JS.

(** Identity of a function object of the page.  What calling it does is
    not in the file; it is a parameter of the semantics below. *)
Definition fn_id := nat.

(** The values a property of [window] can hold.  Numbers are IEEE 754
    binary64, as in the language.  Arrays and plain objects carry their
    elements and their properties in source order. *)
#[warnings="-register-all"]
Inductive value : Type :=
| VUndefined
| VNull
| VBool (b : bool)
| VNumber (x : float)
| VBigInt (n : Z)
| VString (s : string)
| VSymbol (id : nat)
| VArray (elems : list value)
| VObject (props : list (string * value))
| VFunction (f : fn_id).

(** ECMAScript [ToBoolean], the test an [if] statement applies to its
    condition: [undefined], [null], [false], [+0], [-0], [NaN], [0n] and the
    empty string are falsy, everything else is truthy. *)
Definition ToBoolean (v : value) : bool :=
  match v with
  | VUndefined | VNull => false
  | VBool b => b
  | VNumber x => negb (is_zero x || is_nan x)
  | VBigInt n => negb (n =? 0)%Z
  | VString s => negb (String.length s =? 0)%nat
  | VSymbol _ | VArray _ | VObject _ | VFunction _ => true
  end.

(** The value is a function object ([typeof v] is [function]). *)
Definition IsCallable (v : value) : bool :=
  match v with VFunction _ => true | _ => false end.

(** [v !== undefined]. *)
Definition is_defined (v : value) : bool :=
  match v with VUndefined => false | _ => true end.

(** No function object occurs anywhere inside the value. *)
Fixpoint function_free (v : value) : bool :=
  match v with
  | VFunction _ => false
  | VArray elems => forallb function_free elems
  | VObject props => forallb (fun kv => function_free (snd kv)) props
  | _ => true
  end.

(** Own property names of an object, in source order. *)
Definition keys (v : value) : list string :=
  match v with VObject props => map fst props | _ => [] end.

(** [o[k]] for a plain object: the first property named [k]. *)
Definition get_prop (k : string) (v : value) : option value :=
  match v with
  | VObject props => snd <$> List.find (fun kv => String.eqb (fst kv) k) props
  | _ => None
  end.

(** The elements of an array. *)
Definition elements_of (v : value) : list value :=
  match v with VArray elems => elems | _ => [] end.

End JS.
Import JS.

(** ** Text helpers *)

Module Text.

(** The double quote character (code 34). *)
Definition dquote : ascii := ascii_of_nat 34.

(** A string made of one double quote. *)
Definition dq : string := String dquote EmptyString.

(** The string literals of the source contain one escape sequence, a
    backslash followed by a double quote, which denotes a double quote.
    They are written below with a backquote in place of each such escape
    (the file contains no backquote); [js_str] gives the string the literal
    denotes. *)
Fixpoint js_str (s : string) : string :=
  match s with
  | EmptyString => EmptyString
  | String c s' => String (if Ascii.eqb c "`"%char then dquote else c) (js_str s')
  end.

(** [drop n s]: [s] without its first [n] characters. *)
Fixpoint drop_chars (n : nat) (s : string) : string :=
  match n, s with
  | S n', String _ s' => drop_chars n' s'
  | _, _ => s
  end.

(** Split [s] around the first occurrence of [pat]. *)
Fixpoint split_at_first (pat s : string) : option (string * string) :=
  if String.prefix pat s then Some (EmptyString, drop_chars (String.length pat) s)
  else match s with
       | EmptyString => None
       | String c s' =>
           match split_at_first pat s' with
           | Some (before, after) => Some (String c before, after)
           | None => None
           end
       end.

Definition contains (pat s : string) : bool :=
  match split_at_first pat s with Some _ => true | None => false end.

(** The characters of [s] up to (not including) the first [stop]. *)
Fixpoint take_until (stop : ascii) (s : string) : string :=
  match s with
  | EmptyString => EmptyString
  | String c s' => if Ascii.eqb c stop then EmptyString else String c (take_until stop s')
  end.

(** Every text that follows an occurrence of [marker] in [s], up to the
    next double quote: with [marker] the opening of an attribute, the
    values of that attribute, in order. *)
Fixpoint values_after (marker s : string) : list string :=
  match s with
  | EmptyString => []
  | String _ s' =>
      (if String.prefix marker s
       then [take_until dquote (drop_chars (String.length marker) s)]
       else [])
      ++ values_after marker s'
  end.

(** Split at every occurrence of the character [sep]. *)
Fixpoint split_on (sep : ascii) (s : string) : list string :=
  match s with
  | EmptyString => [EmptyString]
  | String c s' =>
      if Ascii.eqb c sep then EmptyString :: split_on sep s'
      else match split_on sep s' with
           | piece :: rest => String c piece :: rest
           | [] => [String c EmptyString]
           end
  end.

(** The text after the last occurrence of [sep] (all of [s] if none). *)
Definition last_piece (sep : ascii) (s : string) : string :=
  List.last (split_on sep s) EmptyString.

(** Remove the markup: everything between a [<] and the next [>]. *)
Fixpoint strip_tags (in_tag : bool) (s : string) : string :=
  match s with
  | EmptyString => EmptyString
  | String c s' =>
      if in_tag then strip_tags (negb (Ascii.eqb c ">"%char)) s'
      else if Ascii.eqb c "<"%char then strip_tags true s'
      else String c (strip_tags false s')
  end.

(** Replace the character references the table uses: [&lt;], [&gt;],
    [&amp;], and [&nbsp;] (rendered here as a plain space).  [skip] counts
    the characters of a reference still to be dropped. *)
Fixpoint decode_entities (skip : nat) (s : string) : string :=
  match s with
  | EmptyString => EmptyString
  | String c s' =>
      match skip with
      | S k => decode_entities k s'
      | O =>
          if String.prefix "&lt;" s then String "<"%char (decode_entities 3 s')
          else if String.prefix "&gt;" s then String ">"%char (decode_entities 3 s')
          else if String.prefix "&amp;" s then String "&"%char (decode_entities 4 s')
          else if String.prefix "&nbsp;" s then String " "%char (decode_entities 5 s')
          else String c (decode_entities 0 s')
      end
  end.

(** Drop leading spaces. *)
Fixpoint trim_left (s : string) : string :=
  match s with
  | String c s' => if Ascii.eqb c " "%char then trim_left s' else s
  | EmptyString => EmptyString
  end.

(** What a browser shows for a piece of the table's HTML. *)
Definition rendered (html : string) : string :=
  decode_entities 0 (strip_tags false html).

End Text.
Import Text.

(** ** The table: lines 1 to 5 of the source, [var implementors = {...}] *)

Definition implementors : value :=
  VObject [
    ("ak09915_rs", VArray [
      VArray [VString (js_str "impl <a class=`trait` href=`https://doc.rust-lang.org/1.68.2/core/marker/trait.Send.html` title=`trait core::marker::Send`>Send</a> for <a class=`enum` href=`ak09915_rs/enum.Register.html` title=`enum ak09915_rs::Register`>Register</a>");
              VNumber 1; VArray [VString "ak09915_rs::Register"]];
      VArray [VString (js_str "impl <a class=`trait` href=`https://doc.rust-lang.org/1.68.2/core/marker/trait.Send.html` title=`trait core::marker::Send`>Send</a> for <a class=`enum` href=`ak09915_rs/enum.Mode.html` title=`enum ak09915_rs::Mode`>Mode</a>");
              VNumber 1; VArray [VString "ak09915_rs::Mode"]];
      VArray [VString (js_str "impl&lt;E&gt; <a class=`trait` href=`https://doc.rust-lang.org/1.68.2/core/marker/trait.Send.html` title=`trait core::marker::Send`>Send</a> for <a class=`enum` href=`ak09915_rs/enum.Error.html` title=`enum ak09915_rs::Error`>Error</a>&lt;E&gt;<span class=`where fmt-newline`>where<br>&nbsp;&nbsp;&nbsp;&nbsp;E: <a class=`trait` href=`https://doc.rust-lang.org/1.68.2/core/marker/trait.Send.html` title=`trait core::marker::Send`>Send</a>,</span>");
              VNumber 1; VArray [VString "ak09915_rs::Error"]];
      VArray [VString (js_str "impl&lt;I2C&gt; <a class=`trait` href=`https://doc.rust-lang.org/1.68.2/core/marker/trait.Send.html` title=`trait core::marker::Send`>Send</a> for <a class=`struct` href=`ak09915_rs/struct.Ak09915.html` title=`struct ak09915_rs::Ak09915`>Ak09915</a>&lt;I2C&gt;<span class=`where fmt-newline`>where<br>&nbsp;&nbsp;&nbsp;&nbsp;I2C: <a class=`trait` href=`https://doc.rust-lang.org/1.68.2/core/marker/trait.Send.html` title=`trait core::marker::Send`>Send</a>,</span>");
              VNumber 1; VArray [VString "ak09915_rs::Ak09915"]]
    ]);
    ("embedded_hal", VArray [
      VArray [VString (js_str "impl&lt;'a&gt; <a class=`trait` href=`https://doc.rust-lang.org/1.68.2/core/marker/trait.Send.html` title=`trait core::marker::Send`>Send</a> for <a class=`enum` href=`embedded_hal/blocking/i2c/enum.Operation.html` title=`enum embedded_hal::blocking::i2c::Operation`>Operation</a>&lt;'a&gt;");
              VNumber 1; VArray [VString "embedded_hal::blocking::i2c::Operation"]];
      VArray [VString (js_str "impl&lt;'a, W&gt; <a class=`trait` href=`https://doc.rust-lang.org/1.68.2/core/marker/trait.Send.html` title=`trait core::marker::Send`>Send</a> for <a class=`enum` href=`embedded_hal/blocking/spi/enum.Operation.html` title=`enum embedded_hal::blocking::spi::Operation`>Operation</a>&lt;'a, W&gt;<span class=`where fmt-newline`>where<br>&nbsp;&nbsp;&nbsp;&nbsp;W: <a class=`trait` href=`https://doc.rust-lang.org/1.68.2/core/marker/trait.Send.html` title=`trait core::marker::Send`>Send</a> + <a class=`trait` href=`https://doc.rust-lang.org/1.68.2/core/marker/trait.Sync.html` title=`trait core::marker::Sync`>Sync</a>,</span>");
              VNumber 1; VArray [VString "embedded_hal::blocking::spi::Operation"]];
      VArray [VString (js_str "impl <a class=`trait` href=`https://doc.rust-lang.org/1.68.2/core/marker/trait.Send.html` title=`trait core::marker::Send`>Send</a> for <a class=`struct` href=`embedded_hal/can/struct.StandardId.html` title=`struct embedded_hal::can::StandardId`>StandardId</a>");
              VNumber 1; VArray [VString "embedded_hal::can::id::StandardId"]];
      VArray [VString (js_str "impl <a class=`trait` href=`https://doc.rust-lang.org/1.68.2/core/marker/trait.Send.html` title=`trait core::marker::Send`>Send</a> for <a class=`struct` href=`embedded_hal/can/struct.ExtendedId.html` title=`struct embedded_hal::can::ExtendedId`>ExtendedId</a>");
              VNumber 1; VArray [VString "embedded_hal::can::id::ExtendedId"]];
      VArray [VString (js_str "impl <a class=`trait` href=`https://doc.rust-lang.org/1.68.2/core/marker/trait.Send.html` title=`trait core::marker::Send`>Send</a> for <a class=`enum` href=`embedded_hal/can/enum.Id.html` title=`enum embedded_hal::can::Id`>Id</a>");
              VNumber 1; VArray [VString "embedded_hal::can::id::Id"]];
      VArray [VString (js_str "impl <a class=`trait` href=`https://doc.rust-lang.org/1.68.2/core/marker/trait.Send.html` title=`trait core::marker::Send`>Send</a> for <a class=`enum` href=`embedded_hal/can/enum.ErrorKind.html` title=`enum embedded_hal::can::ErrorKind`>ErrorKind</a>");
              VNumber 1; VArray [VString "embedded_hal::can::ErrorKind"]];
      VArray [VString (js_str "impl <a class=`trait` href=`https://doc.rust-lang.org/1.68.2/core/marker/trait.Send.html` title=`trait core::marker::Send`>Send</a> for <a class=`enum` href=`embedded_hal/digital/v2/enum.PinState.html` title=`enum embedded_hal::digital::v2::PinState`>PinState</a>");
              VNumber 1; VArray [VString "embedded_hal::digital::v2::PinState"]];
      VArray [VString (js_str "impl&lt;T&gt; <a class=`trait` href=`https://doc.rust-lang.org/1.68.2/core/marker/trait.Send.html` title=`trait core::marker::Send`>Send</a> for <a class=`struct` href=`embedded_hal/digital/v1_compat/struct.OldOutputPin.html` title=`struct embedded_hal::digital::v1_compat::OldOutputPin`>OldOutputPin</a>&lt;T&gt;<span class=`where fmt-newline`>where<br>&nbsp;&nbsp;&nbsp;&nbsp;T: <a class=`trait` href=`https://doc.rust-lang.org/1.68.2/core/marker/trait.Send.html` title=`trait core::marker::Send`>Send</a>,</span>");
              VNumber 1; VArray [VString "embedded_hal::digital::v1_compat::OldOutputPin"]];
      VArray [VString (js_str "impl <a class=`trait` href=`https://doc.rust-lang.org/1.68.2/core/marker/trait.Send.html` title=`trait core::marker::Send`>Send</a> for <a class=`enum` href=`embedded_hal/spi/enum.Polarity.html` title=`enum embedded_hal::spi::Polarity`>Polarity</a>");
              VNumber 1; VArray [VString "embedded_hal::spi::Polarity"]];
      VArray [VString (js_str "impl <a class=`trait` href=`https://doc.rust-lang.org/1.68.2/core/marker/trait.Send.html` title=`trait core::marker::Send`>Send</a> for <a class=`enum` href=`embedded_hal/spi/enum.Phase.html` title=`enum embedded_hal::spi::Phase`>Phase</a>");
              VNumber 1; VArray [VString "embedded_hal::spi::Phase"]];
      VArray [VString (js_str "impl <a class=`trait` href=`https://doc.rust-lang.org/1.68.2/core/marker/trait.Send.html` title=`trait core::marker::Send`>Send</a> for <a class=`struct` href=`embedded_hal/spi/struct.Mode.html` title=`struct embedded_hal::spi::Mode`>Mode</a>");
              VNumber 1; VArray [VString "embedded_hal::spi::Mode"]]
    ]);
    ("void", VArray [
      VArray [VString (js_str "impl <a class=`trait` href=`https://doc.rust-lang.org/1.68.2/core/marker/trait.Send.html` title=`trait core::marker::Send`>Send</a> for <a class=`enum` href=`void/enum.Void.html` title=`enum void::Void`>Void</a>");
              VNumber 1; VArray [VString "void::Void"]]
    ])
  ].

(** ** Reading the table *)

Module Index.

(** The properties of an object, in source order. *)
Definition properties (t : value) : list (string * value) :=
  match t with VObject props => props | _ => [] end.

(** Every entry of the table, paired with the key it is listed under. *)
Definition all_entries (t : value) : list (string * value) :=
  flat_map (fun kv => map (pair (fst kv)) (elements_of (snd kv))) (properties t).

(** The two strings of an entry [[html, 1, [path]]]. *)
Definition entry_parts (e : value) : option (string * string) :=
  match e with
  | VArray [VString html; VNumber n; VArray [VString path]] =>
      if PrimFloat.eqb n 1 then Some (html, path) else None
  | _ => None
  end.

Definition entry_html (e : value) : option string := fst <$> entry_parts e.
Definition entry_path (e : value) : option string := snd <$> entry_parts e.

(** The HTML of the entry listed under [crate] for the type [path]. *)
Definition impl_html (t : value) (crate path : string) : option string :=
  es ← get_prop crate t;
  e ← List.find (fun e => match entry_path e with
                          | Some p => String.eqb p path
                          | None => false
                          end) (elements_of es);
  entry_html e.

(** The opening of the attribute [name], up to and including the double
    quote that starts its value. *)
Definition attr_open (name : string) : string := name +:+ "=" +:+ dq.

(** The string has an anchor element with a target. *)
Definition is_html_link (html : string) : bool :=
  contains ("<a " +:+ attr_open "class") html
  && contains (" " +:+ attr_open "href") html
  && contains "</a>" html.

(** [path] is a path in [crate]: it starts with the crate's name and
    [::], and ends in a name. *)
Definition is_qualified_in (crate path : string) : bool :=
  String.prefix (crate +:+ "::") path
  && negb (String.eqb (last_piece ":" path) EmptyString).

(** Paths of the traits linked in [s]: rustdoc gives the anchor of a trait
    the title [trait] followed by the path of the trait. *)
Definition trait_paths (s : string) : list string :=
  values_after (attr_open "title" +:+ "trait ") s.

(** The part of an entry before [ for ]: [impl], the generics, and the
    trait that is implemented. *)
Definition impl_header (html : string) : string :=
  match split_at_first " for " html with
  | Some (header, _) => header
  | None => html
  end.

(** The traits linked in the header: the trait the entry implements. *)
Definition implemented_traits (html : string) : list string :=
  trait_paths (impl_header html).

(** The text of the first anchor after [ for ]: the implementing type. *)
Definition implementing_type (html : string) : option string :=
  '(_, target) ← split_at_first " for " html;
  '(_, text) ← split_at_first ">" target;
  Some (take_until "<"%char text).

(** The where-clause of an entry, if it has one: the contents of the
    [span] of class [where fmt-newline], after the keyword. *)
Definition where_clause (html : string) : option string :=
  '(_, rest) ← split_at_first
     ("<span " +:+ attr_open "class" +:+ "where fmt-newline" +:+ dq +:+ ">where") html;
  '(clause, _) ← split_at_first "</span>" rest;
  Some clause.

(** One predicate [P: T1 + T2] of a where-clause: the bounded parameter
    and the paths of the traits that bound it. *)
Definition bound_of (pred : string) : option (string * list string) :=
  '(param, bounds) ← split_at_first ": " pred;
  Some (trim_left (rendered param), trait_paths bounds).

(** The bounds an entry puts on its type parameters. *)
Definition where_bounds (html : string) : list (string * list string) :=
  match where_clause html with
  | Some clause => omap bound_of (split_on ","%char clause)
  | None => []
  end.

(** The entries listed under the key [crate]. *)
Definition entries_of (t : value) (crate : string) : list value :=
  from_option elements_of [] (get_prop crate t).

(** [k] names the trait of path [tp]: it is the path or its last segment. *)
Definition is_name_of (k tp : string) : bool :=
  String.eqb k tp || String.eqb k (last_piece ":" tp).

End Index.
Import Index.

(** ** The script: line 5 of the source

    <<
    if (window.register_implementors) {
      window.register_implementors(implementors);
    } else {
      window.pending_implementors = implementors;
    }
    >>

    The statement runs inside [(function() {...})()], so [var implementors]
    is a local of that function and not a property of [window]. *)

Module Script.

(** What the script does, in the order it does it. *)
Inductive event : Type :=
| EvGet (k : string) (v : value)            (* reading [window.k] gave [v] *)
| EvBranch (taken : bool)                   (* the [if] chose its first ([true]) or its [else] branch *)
| EvCall (callee : fn_id) (args : list value)  (* the call [callee(args)], with [this] the window *)
| EvSet (k : string) (v : value).           (* the assignment [window.k = v] *)

(** How an evaluation ends: with a value, or with a thrown exception. *)
Inductive completion (A : Type) : Type :=
| Normal (a : A)
| Throw (exn : value).
Arguments Normal {A} a.
Arguments Throw {A} exn.

(** The exception of a call to something that is not a function. *)
Definition TypeError : value := VObject [("name", VString "TypeError")].

(** The properties of [window], and the events so far.  The properties
    are plain data properties: reading one has no effect, and assigning one
    stores the value. *)
Record state : Type := State { window : gmap string value; trace : list event }.

(** The page: what calling function [f] with [args] on a window does, the
    completion of the call and the window it leaves.  The functions of the
    page are not in the file, so the page is an argument of [script]. *)
Definition host : Type :=
  fn_id → list value → gmap string value → completion value * gmap string value.

Definition M (A : Type) : Type := state → completion A * state.

#[export] Instance M_ret : MRet M := λ A a s, (Normal a, s).
#[export] Instance M_bind : MBind M := λ A B f m s,
  match m s with
  | (Normal a, s') => f a s'
  | (Throw exn, s') => (Throw exn, s')
  end.

Definition log (e : event) (s : state) : state :=
  {| window := window s; trace := trace s ++ [e] |}.

(** [w.k]: an absent property reads as [undefined]. *)
Definition read (w : gmap string value) (k : string) : value :=
  default VUndefined (w !! k).

(** [window.k] *)
Definition get_window (k : string) : M value :=
  λ s, let v := read (window s) k in (Normal v, log (EvGet k v) s).

(** [window.k = v] *)
Definition set_window (k : string) (v : value) : M unit :=
  λ s, (Normal (), log (EvSet k v) {| window := <[k := v]> (window s); trace := trace s |}).

(** The test of an [if] statement. *)
Definition branch (c : value) : M bool :=
  λ s, let b := ToBoolean c in (Normal b, log (EvBranch b) s).

(** [f(args)]: a [TypeError] unless [f] is a function; otherwise the page
    runs the function on the window. *)
Definition call (h : host) (f : value) (args : list value) : M value :=
  λ s, match f with
       | VFunction id =>
           let '(r, w') := h id args (window s) in
           (r, log (EvCall id args) {| window := w'; trace := trace s |})
       | _ => (Throw TypeError, s)
       end.

(** The body of the function expression. *)
Definition script (h : host) : M unit :=
  let implementors := implementors in           (* var implementors = {...}; *)
  c ← get_window "register_implementors";       (* if (window.register_implementors) *)
  b ← branch c;
  if b : bool then
    f ← get_window "register_implementors";     (*   window.register_implementors(implementors); *)
    _ ← call h f [implementors];
    mret ()
  else
    set_window "pending_implementors" implementors.
                                                (*   window.pending_implementors = implementors; *)

(** One execution of the file on a page whose window is [w]. *)
Definition run (h : host) (w : gmap string value) : completion unit * state :=
  script h {| window := w; trace := [] |}.

(** The completion of an expression statement: its value is dropped. *)
Definition discard (r : completion value) : completion unit :=
  match r with Normal _ => Normal () | Throw exn => Throw exn end.

(** The calls, assignments and branch choices of a trace. *)
Definition calls (t : list event) : list (fn_id * list value) :=
  omap (λ e, match e with EvCall f args => Some (f, args) | _ => None end) t.

Definition writes (t : list event) : list (string * value) :=
  omap (λ e, match e with EvSet k v => Some (k, v) | _ => None end) t.

Definition branches (t : list event) : list bool :=
  omap (λ e, match e with EvBranch b => Some b | _ => None end) t.

(** Every value the script hands to the page: the arguments of its calls
    and the values it assigns. *)
Definition delivered (t : list event) : list value :=
  flat_map (λ e, match e with
                 | EvCall _ args => args
                 | EvSet _ v => [v]
                 | _ => []
                 end) t.

(** A page with no functions that matter: every call returns [undefined]
    and leaves the window as it is. *)
Definition idle : host := λ _ _ w, (Normal VUndefined, w).

(** A page whose function [g] records in the window that it ran, and
    whose other functions do nothing. *)
Definition marking (g : fn_id) : host :=
  λ f _ w, if decide (f = g)
           then (Normal VUndefined, <["loaded" := VBool true]> w)
           else (Normal VUndefined, w).

End Script.
Import Script.

(** ** The text of the file

    The notation of the table as rustdoc writes it: the object literal opens
    on the line of [var implementors], every key has a line of its own, and
    the closing brace starts the line of the [if] statement. *)

Module Source.

(** The line feed character (code 10). *)
Definition LF : ascii := ascii_of_nat 10.

(** The integer a number is, when it is one below [2^53] in absolute
    value: those are written with all their digits and no exponent. *)
Definition integer_of (x : float) : option Z :=
  match Prim2SF x with
  | S754_zero _ => Some 0%Z
  | S754_finite neg m e =>
      if (e <=? 0)%Z && (Z.pos m mod 2 ^ (- e) =? 0)%Z
      then Some ((if neg then -1 else 1) * (Z.pos m / 2 ^ (- e)))%Z
      else None
  | _ => None
  end.

(** A character that stands for itself in a string literal, or is one of
    the two the literal escapes. *)
Definition plain (c : ascii) : bool :=
  (32 <=? nat_of_ascii c)%nat && (nat_of_ascii c <? 127)%nat.

(** The body of a string literal: a backslash goes before every double
    quote and every backslash. *)
Fixpoint escape (s : string) : string :=
  match s with
  | EmptyString => EmptyString
  | String c s' =>
      if Ascii.eqb c dquote || Ascii.eqb c "\"%char
      then String "\"%char (String c (escape s'))
      else String c (escape s')
  end.

(** What the body of a string literal denotes: a backslash gives way to
    the character after it. *)
Fixpoint unescape (s : string) : string :=
  match s with
  | EmptyString => EmptyString
  | String c s' =>
      if Ascii.eqb c "\"%char then
        match s' with
        | EmptyString => EmptyString
        | String c' s'' => String c' (unescape s'')
        end
      else String c (unescape s')
  end.

(** The literal of a string of plain characters. *)
Definition quote (s : string) : option string :=
  if forallb plain (String.list_ascii_of_string s)
  then Some (dq +:+ escape s +:+ dq)
  else None.

(** The literal of a value made of strings, integers, arrays and objects;
    no other value has one. *)
Fixpoint print_literal (v : value) : option string :=
  match v with
  | VString s => quote s
  | VNumber x => pretty <$> integer_of x
  | VArray elems =>
      items ← mapM print_literal elems;
      Some ("[" +:+ String.concat "," items +:+ "]")
  | VObject props =>
      items ← mapM (λ kv, k ← quote (fst kv);
                          p ← print_literal (snd kv);
                          Some (k +:+ ":" +:+ p)) props;
      Some ("{" +:+ String LF (String.concat (String "," (String LF EmptyString)) items)
                +:+ String LF "}")
  | _ => None
  end.

(** The text before the table, and the text after it. *)
Definition script_open : string := "(function() {var implementors = ".
Definition script_close : string :=
  ";if (window.register_implementors) {window.register_implementors(implementors);}"
  +:+ " else {window.pending_implementors = implementors;}})()".

(** The file. *)
Definition source_text : option string :=
  table ← print_literal implementors;
  Some (script_open +:+ table +:+ script_close).

(** The lines of a text. *)
Definition lines (text : string) : list string := split_on LF text.

End Source.
Import Source.

(** ** The links and the markup of an entry *)

Module Markup.

(** The value of the attribute [name] in the tag [tag]. *)
Definition attr_value (name tag : string) : option string :=
  '(_, rest) ← split_at_first (" " +:+ attr_open name) tag;
  Some (take_until dquote rest).

(** An anchor element: its three attributes and its text. *)
Record anchor : Type :=
  Anchor { a_class : string; a_href : string; a_title : string; a_text : string }.

(** The anchor that opens [s], if one does: the attributes are read in its
    tag, up to the first [>], and the text runs from there to the next [<]. *)
Definition anchor_at (s : string) : option anchor :=
  if String.prefix "<a " s then
    let tag := take_until ">"%char s in
    c ← attr_value "class" tag;
    h ← attr_value "href" tag;
    t ← attr_value "title" tag;
    '(_, rest) ← split_at_first ">" s;
    Some (Anchor c h t (take_until "<"%char rest))
  else None.

(** The anchors of a string, in order. *)
Fixpoint anchors (s : string) : list anchor :=
  match s with
  | EmptyString => []
  | String _ s' => from_option (λ a, [a]) [] (anchor_at s) ++ anchors s'
  end.

(** The segments of a path [a::b::c]. *)
Definition segments (path : string) : list string :=
  List.filter (λ s, negb (String.eqb s EmptyString)) (split_on ":"%char path).

(** The page rustdoc writes for the item of kind [kind] at [path]: the
    directories of the path, then [kind.Name.html]. *)
Definition doc_page (kind path : string) : string :=
  let segs := segments path in
  String.concat "/"
    (removelast segs ++ [kind +:+ "." +:+ List.last segs EmptyString +:+ ".html"]).

(** Where the pages of an item are: the items of [core] in the
    documentation of the standard library, release 1.68.2, the others
    beside the pages of this documentation. *)
Definition doc_base (path : string) : string :=
  if String.prefix "core::" path
  then "https://doc.rust-lang.org/1.68.2/"
  else EmptyString.

(** The anchor agrees with itself: its title is its class and a path, its
    text is the last segment of the path, and its target is the page of
    that item. *)
Definition consistent (a : anchor) : bool :=
  match split_at_first " " (a_title a) with
  | Some (kind, path) =>
      String.eqb kind (a_class a)
      && String.eqb (a_text a) (last_piece ":" path)
      && String.eqb (a_href a) (doc_base path +:+ doc_page kind path)
  | None => false
  end.

(** The number of places of [s] where [pat] starts. *)
Fixpoint count_sub (pat s : string) : nat :=
  match s with
  | EmptyString => 0
  | String _ s' => (if String.prefix pat s then 1 else 0) + count_sub pat s'
  end.


(** The two elements of the table that have a closing tag. *)
Inductive element : Type := El_a | El_span.

(** The elements of [s] nest: a closing tag closes the element opened last
    ([stack] holds the open elements, innermost first), no anchor opens
    inside an anchor, and nothing is left open at the end. *)
Fixpoint nested (stack : list element) (s : string) : bool :=
  match s with
  | EmptyString => match stack with [] => true | _ :: _ => false end
  | String _ s' =>
      if String.prefix "</a>" s then
        match stack with El_a :: outer => nested outer s' | _ => false end
      else if String.prefix "</span>" s then
        match stack with El_span :: outer => nested outer s' | _ => false end
      else if String.prefix "<a " s then
        if existsb (λ e, match e with El_a => true | El_span => false end) stack
        then false
        else nested (El_a :: stack) s'
      else if String.prefix "<span " s then nested (El_span :: stack) s'
      else nested stack s'
  end.



(** The parameters the header of an entry declares: [impl<'a, W>] declares
    ['a] and [W]. *)
Definition generics (html : string) : list string :=
  match split_at_first "<" (rendered (impl_header html)) with
  | Some (_, rest) => map trim_left (split_on ","%char (take_until ">"%char rest))
  | None => []
  end.

(** A lifetime parameter starts with an apostrophe. *)
Definition is_lifetime (param : string) : bool := String.prefix "'" param.

(** The type parameters among the generics. *)
Definition type_params (html : string) : list string :=
  List.filter (λ p, negb (is_lifetime p)) (generics html).

(** Every bound of the where-clause includes [core::marker::Send]. *)
Definition bounds_include_send (html : string) : bool :=
  forallb (λ b, existsb (String.eqb "core::marker::Send") (snd b)) (where_bounds html).

End Markup.
Import Markup.

(** A page whose functions all throw [exn] and leave the window as it is. *)
Definition failing (exn : value) : host := λ _ _ w, (Throw exn, w).

(** * Properties of the table *)

(** An entry listed under [crate] is a triple of an HTML string with a
    link, the number 1 and a list with one path; the HTML carries no
    script, and the path is a path in [crate] that ends in the name of the
    type the HTML links after [ for ]. *)
Definition well_formed_entry (crate : string) (e : value) : Prop :=
  ∃ html path : string,
    e = VArray [VString html; VNumber 1; VArray [VString path]]
    ∧ is_html_link html = true
    ∧ contains "<script" html = false
    ∧ is_qualified_in crate path = true
    ∧ implementing_type html = Some (last_piece ":" path).

(** The entry implements the trait of path [trait] and no other. *)
Definition implements (trait : string) (e : value) : Prop :=
  ∃ html : string,
    entry_html e = Some html ∧ implemented_traits html = [trait].

(** The entry, listed under [crate], records that a type of that crate
    implements [core::marker::Send]: its path starts with the crate and ends
    in the name of the type its HTML links after [ for ]. *)
Definition send_impl_of_crate (crate : string) (e : value) : Prop :=
  ∃ html path : string,
    entry_parts e = Some (html, path)
    ∧ String.prefix (crate +:+ "::") path = true
    ∧ implemented_traits html = ["core::marker::Send"]
    ∧ implementing_type html = Some (last_piece ":" path).

Ltac entry_by_evaluation :=
  first [ eexists _, _ | eexists ];
  (split; [ reflexivity | repeat split; vm_compute; reflexivity ]).

Ltac each_entry :=
  repeat first [ apply List.Forall_nil
               | apply List.Forall_cons; [ entry_by_evaluation | ] ].

Lemma all_entries_count : length (all_entries implementors) = 16.
Proof. reflexivity. Qed.

(** C5.  The keys of the table are exactly [ak09915_rs], [embedded_hal] and
    [void], each once: the table describes these three crates and no other. *)
Theorem implementors_keys :
  keys implementors = ["ak09915_rs"; "embedded_hal"; "void"]
  ∧ NoDup (keys implementors)
  ∧ list_to_set (keys implementors)
    =@{gset string} {["ak09915_rs"; "embedded_hal"; "void"]}.
Proof.
  assert (Hkeys : keys implementors = ["ak09915_rs"; "embedded_hal"; "void"])
    by reflexivity.
  rewrite Hkeys. split; [ reflexivity | split ].
  - compute_done.
  - set_solver.
Qed.

(** C6.  The table holds descriptive metadata only.  No function value
    occurs anywhere in it; the value of every key is an array; and every
    entry under a key is a triple of an HTML string with a link (and no
    script), the number 1, and a list holding one path, the path of the
    implementing type, qualified by the key's crate. *)
Theorem implementors_is_metadata :
  function_free implementors = true
  ∧ Forall (λ kv, ∃ es, snd kv = VArray es) (properties implementors)
  ∧ Forall (λ ce, well_formed_entry (fst ce) (snd ce)) (all_entries implementors).
Proof.
  split; [ reflexivity | split ].
  - repeat first [ apply List.Forall_nil
                 | apply List.Forall_cons; [ eexists; reflexivity | ] ].
  - unfold well_formed_entry. simpl all_entries. each_entry.
Qed.

(** C4.  Every one of the sixteen entries, under every key, implements
    [core::marker::Send]: the header of the entry, up to [ for ], links
    that trait and no other. *)
Theorem implementors_all_send :
  length (all_entries implementors) = 16
  ∧ Forall (λ ce, implements "core::marker::Send" (snd ce)) (all_entries implementors).
Proof.
  split; [ reflexivity | ].
  unfold implements. simpl all_entries. each_entry.
Qed.

(** C3, as stated, fails: the key [void] is not the name of the trait its
    entry implements.  The one entry under [void] implements
    [core::marker::Send], for the type [void::Void]; [void] is neither that
    path nor its last segment, it is the crate of the type. *)
Lemma implementors_key_void_is_a_crate :
  ∃ (e : value) (html : string),
    all_entries implementors !! 15%nat = Some ("void", e)
    ∧ entry_parts e = Some (html, "void::Void")
    ∧ implemented_traits html = ["core::marker::Send"]
    ∧ is_name_of "void" "core::marker::Send" = false.
Proof.
  eexists _, _.
  split; [ reflexivity | ].
  split; [ reflexivity | ].
  split; vm_compute; reflexivity.
Qed.

(** C3, amended.  The table maps crate names to lists of entries: every
    entry under a key records a type of that crate (the path of the type
    starts with the key) that implements the one trait
    [core::marker::Send], and names that type in its link. *)
Theorem implementors_keyed_by_crate :
  Forall (λ ce, send_impl_of_crate (fst ce) (snd ce)) (all_entries implementors).
Proof. unfold send_impl_of_crate. simpl all_entries. each_entry. Qed.

(** C9.  The key [ak09915_rs] lists four entries, for [Register], [Mode],
    [Error] and [Ak09915].  The entries of [Register] and [Mode] have no
    type parameter and no where-clause.  The entry of [Error] is generic in
    [E] and its where-clause bounds [E] by [core::marker::Send]; the entry of
    [Ak09915] is generic in [I2C] and bounds [I2C] by [core::marker::Send]. *)
Theorem ak09915_rs_send_bounds :
  let html := impl_html implementors "ak09915_rs" in
  omap entry_path (entries_of implementors "ak09915_rs")
  = ["ak09915_rs::Register"; "ak09915_rs::Mode"; "ak09915_rs::Error"; "ak09915_rs::Ak09915"]
  ∧ length (entries_of implementors "ak09915_rs") = 4
  ∧ (where_clause <$> html "ak09915_rs::Register" = Some None
     ∧ rendered <$> html "ak09915_rs::Register" = Some "impl Send for Register")
  ∧ (where_clause <$> html "ak09915_rs::Mode" = Some None
     ∧ rendered <$> html "ak09915_rs::Mode" = Some "impl Send for Mode")
  ∧ (where_bounds <$> html "ak09915_rs::Error" = Some [("E", ["core::marker::Send"])]
     ∧ rendered <$> html "ak09915_rs::Error"
       = Some "impl<E> Send for Error<E>where    E: Send,")
  ∧ (where_bounds <$> html "ak09915_rs::Ak09915" = Some [("I2C", ["core::marker::Send"])]
     ∧ rendered <$> html "ak09915_rs::Ak09915"
       = Some "impl<I2C> Send for Ak09915<I2C>where    I2C: Send,").
Proof. cbv zeta. repeat split; vm_compute; reflexivity. Qed.

(** * Properties of the script *)

(** The falsy values, one of each kind, and some truthy ones. *)
Example ToBoolean_falsy :
  map ToBoolean [VUndefined; VNull; VBool false; VNumber 0; VNumber (-0);
                 VNumber nan; VBigInt 0; VString EmptyString]
  = [false; false; false; false; false; false; false; false].
Proof. reflexivity. Qed.

Example ToBoolean_truthy :
  map ToBoolean [VBool true; VNumber 1; VNumber infinity; VBigInt (-1);
                 VString "0"; VSymbol 0; VArray []; VObject []; VFunction 0]
  = [true; true; true; true; true; true; true; true; true].
Proof. reflexivity. Qed.

Section Execution.

Context (h : host) (w : gmap string value).

(** The value the script finds in [window.register_implementors]. *)
Local Abbreviation v := (read w "register_implementors").

(** The [else] branch: the value is falsy, the table is assigned. *)
Lemma run_falsy :
  ToBoolean v = false →
  run h w =
    (Normal (),
     {| window := <["pending_implementors" := implementors]> w;
        trace := [EvGet "register_implementors" v; EvBranch false;
                  EvSet "pending_implementors" implementors] |}).
Proof.
  intros Hv. unfold run, script.
  unfold mbind, M_bind, get_window, branch, set_window, log.
  cbn [window trace app]. rewrite Hv. reflexivity.
Qed.

(** The first branch, on a function: the page runs the function once. *)
Lemma run_function (f : fn_id) :
  v = VFunction f →
  run h w =
    (discard (h f [implementors] w).1,
     {| window := (h f [implementors] w).2;
        trace := [EvGet "register_implementors" v; EvBranch true;
                  EvGet "register_implementors" v; EvCall f [implementors]] |}).
Proof.
  intros Hv. unfold run, script.
  unfold mbind, M_bind, mret, M_ret, get_window, branch, call, log.
  cbn [window trace app]. rewrite Hv. cbn [ToBoolean window trace app].
  rewrite Hv.
  destruct (h f [implementors] w) as [[r|exn] w']; reflexivity.
Qed.

(** The first branch, on a truthy value that is not a function: the call
    throws before anything is called or assigned. *)
Lemma run_not_callable :
  ToBoolean v = true → IsCallable v = false →
  run h w =
    (Throw TypeError,
     {| window := w;
        trace := [EvGet "register_implementors" v; EvBranch true;
                  EvGet "register_implementors" v] |}).
Proof.
  intros Hv Hf. unfold run, script.
  unfold mbind, M_bind, get_window, branch, call, log.
  cbn [window trace app]. rewrite Hv. cbn [window trace app].
  destruct v; try discriminate; reflexivity.
Qed.

(** The three cases in one equation. *)
Lemma run_cases :
  run h w =
    if ToBoolean v then
      match v with
      | VFunction f =>
          (discard (h f [implementors] w).1,
           {| window := (h f [implementors] w).2;
              trace := [EvGet "register_implementors" v; EvBranch true;
                        EvGet "register_implementors" v; EvCall f [implementors]] |})
      | _ =>
          (Throw TypeError,
           {| window := w;
              trace := [EvGet "register_implementors" v; EvBranch true;
                        EvGet "register_implementors" v] |})
      end
    else
      (Normal (),
       {| window := <["pending_implementors" := implementors]> w;
          trace := [EvGet "register_implementors" v; EvBranch false;
                    EvSet "pending_implementors" implementors] |}).
Proof.
  destruct (ToBoolean v) eqn:Hb; [ | by apply run_falsy ].
  destruct (IsCallable v) eqn:Hf.
  - destruct v as [| | | | | | | | |f] eqn:Hv; try discriminate Hf.
    rewrite (run_function _ Hv), Hv. reflexivity.
  - rewrite (run_not_callable Hb Hf).
    destruct v; try discriminate Hf; reflexivity.
Qed.

(** The branch choices, the assignments and the final window of a run. *)
Lemma run_branches : branches (trace (run h w).2) = [ToBoolean v].
Proof.
  rewrite run_cases. destruct (ToBoolean v); [ | reflexivity ].
  destruct v; reflexivity.
Qed.

Lemma run_writes :
  writes (trace (run h w).2)
  = if ToBoolean v then [] else [("pending_implementors", implementors)].
Proof.
  rewrite run_cases. destruct (ToBoolean v); [ | reflexivity ].
  destruct v; reflexivity.
Qed.

Lemma run_window :
  window (run h w).2
  = if ToBoolean v
    then match v with VFunction f => (h f [implementors] w).2 | _ => w end
    else <["pending_implementors" := implementors]> w.
Proof.
  rewrite run_cases. destruct (ToBoolean v); [ | reflexivity ].
  destruct v; reflexivity.
Qed.

(** An absent property reads as [undefined], which is falsy. *)
Lemma absent_is_falsy : w !! "register_implementors" = None → ToBoolean v = false.
Proof. intros Hw. unfold read. rewrite Hw. reflexivity. Qed.

End Execution.

Section Dispatch.

Context (h : host) (w : gmap string value).

(** C1, amended.  The script tests [window.register_implementors] for
    truthiness.  On a truthy value it calls that value once, with the table
    as the only argument, and assigns nothing; when the truthy value is not
    a function the call throws a [TypeError] and nothing is called.  On a
    falsy value it calls nothing and makes one assignment, of the table to
    [window.pending_implementors], and completes normally.  So whenever the
    value is falsy or a function, exactly one of the two actions occurs. *)
Theorem register_dispatch :
  let v := read w "register_implementors" in
  let t := trace (run h w).2 in
  if ToBoolean v then
    writes t = []
    ∧ match v with
      | VFunction f => calls t = [(f, [implementors])]
      | _ => calls t = [] ∧ (run h w).1 = Throw TypeError
      end
  else
    calls t = []
    ∧ writes t = [("pending_implementors", implementors)]
    ∧ (run h w).1 = Normal ().
Proof.
  intros v t. subst t. rewrite run_cases. fold v.
  destruct (ToBoolean v); [ | repeat split; reflexivity ].
  destruct v; repeat split; reflexivity.
Qed.

(** C2, amended.  Every execution evaluates one conditional, on the
    truthiness of [window.register_implementors], and takes one of its two
    branches.  On the first branch the script assigns nothing: the window
    is then as the called function leaves it, or unchanged when the call
    throws a [TypeError].  On the [else] branch the script makes one
    assignment, to [window.pending_implementors]. *)
Theorem script_control_and_state :
  let v := read w "register_implementors" in
  let r := run h w in
  branches (trace r.2) = [ToBoolean v]
  ∧ writes (trace r.2)
    = (if ToBoolean v then [] else [("pending_implementors", implementors)])
  ∧ window r.2
    = (if ToBoolean v
       then match v with VFunction f => (h f [implementors] w).2 | _ => w end
       else <["pending_implementors" := implementors]> w).
Proof.
  intros v r. subst r v.
  split; [ apply run_branches | split; [ apply run_writes | apply run_window ] ].
Qed.

(** C10.  The script assigns [window.pending_implementors] if and only if
    [window.register_implementors] is falsy, and assigns no other property:
    every assignment in its trace is to [pending_implementors], and there is
    at most one.  An absent [register_implementors] is falsy.  The state
    agrees with the trace.  After the [else] branch the window is the one
    before with [pending_implementors] set to the table: every other
    property, [register_implementors] among them, is as before.  On the
    first branch the script assigns nothing and has changed nothing itself:
    the window is exactly as the called function left it, and is the window
    before when the value is not a function. *)
Theorem script_frame :
  let v := read w "register_implementors" in
  let r := run h w in
  (writes (trace r.2) = [("pending_implementors", implementors)] ↔ ToBoolean v = false)
  ∧ (∀ k x, (k, x) ∈ writes (trace r.2) → k = "pending_implementors")
  ∧ length (writes (trace r.2)) ≤ 1
  ∧ (w !! "register_implementors" = None → ToBoolean v = false)
  ∧ (ToBoolean v = false →
     ∀ k, k ≠ "pending_implementors" → window r.2 !! k = w !! k)
  ∧ (ToBoolean v = false →
     window r.2 !! "register_implementors" = w !! "register_implementors")
  ∧ (ToBoolean v = false →
     window r.2 = <["pending_implementors" := implementors]> w)
  ∧ (ToBoolean v = true →
     window r.2
     = match v with VFunction f => (h f [implementors] w).2 | _ => w end)
  ∧ (ToBoolean v = true → writes (trace r.2) = []).
Proof.
  intros v r. subst r.
  assert (Habs : w !! "register_implementors" = None → ToBoolean v = false)
    by apply absent_is_falsy.
  rewrite run_writes, run_window. fold v.
  destruct (ToBoolean v) eqn:Hb.
  - split; [ split; discriminate | ].
    split; [ intros k x Hin; inversion Hin | ].
    split; [ simpl; lia | ].
    split; [ exact Habs | ].
    split; [ discriminate | ]. split; [ discriminate | ].
    split; [ discriminate | ]. split; reflexivity.
  - split; [ split; reflexivity | ].
    split.
    { intros k x Hin. apply list_elem_of_singleton in Hin. congruence. }
    split; [ simpl; lia | ].
    split; [ reflexivity | ].
    split; [ intros _ k Hk; by rewrite lookup_insert_ne | ].
    split; [ intros _; by rewrite lookup_insert_ne | ].
    split; [ reflexivity | ]. split; discriminate.
Qed.

End Dispatch.

(** C1, as stated, fails on a value that is defined and falsy: with
    [window.register_implementors = false] the script calls nothing and
    assigns the table to [window.pending_implementors].  It also fails on a
    truthy value that is not a function: with
    [window.register_implementors = 1] the call throws, and the script has
    neither called a function nor assigned the table. *)
Lemma register_dispatch_defined_not_called :
  let w0 : gmap string value := {["register_implementors" := VBool false]} in
  let w1 : gmap string value := {["register_implementors" := VNumber 1]} in
  (is_defined (read w0 "register_implementors") = true
   ∧ calls (trace (run idle w0).2) = []
   ∧ writes (trace (run idle w0).2) = [("pending_implementors", implementors)])
  ∧ (is_defined (read w1 "register_implementors") = true
     ∧ calls (trace (run idle w1).2) = []
     ∧ writes (trace (run idle w1).2) = []
     ∧ (run idle w1).1 = Throw TypeError).
Proof. cbv zeta. repeat split. Qed.

(** C2, as stated, fails on the empty window: the script takes the [else]
    branch of its conditional, and the window, which had no property
    [pending_implementors], has it afterwards. *)
Lemma script_branches_and_assigns :
  let r := run idle ∅ in
  branches (trace r.2) = [false]
  ∧ writes (trace r.2) = [("pending_implementors", implementors)]
  ∧ (∅ : gmap string value) !! "pending_implementors" = None
  ∧ window r.2 !! "pending_implementors" = Some implementors.
Proof. cbv zeta. repeat split. Qed.

(** The frame of C10 on two windows.  On a window that holds [false] in
    [register_implementors] and a property [loaded], both are as before
    after the run, and [pending_implementors] holds the table.  On a window
    whose [register_implementors] is a function that sets [loaded], the
    window after the run is the one that function left. *)
Lemma script_frame_witness :
  let w0 : gmap string value :=
    <["loaded" := VBool true]> {["register_implementors" := VBool false]} in
  let w1 : gmap string value := {["register_implementors" := VFunction 0]} in
  (ToBoolean (read w0 "register_implementors") = false
   ∧ window (run idle w0).2 !! "register_implementors" = Some (VBool false)
   ∧ window (run idle w0).2 !! "loaded" = Some (VBool true)
   ∧ window (run idle w0).2 !! "pending_implementors" = Some implementors)
  ∧ (ToBoolean (read w1 "register_implementors") = true
     ∧ window (run (marking 0) w1).2 = <["loaded" := VBool true]> w1
     ∧ writes (trace (run (marking 0) w1).2) = []).
Proof.
  cbv zeta. split.
  - assert (Hv : ToBoolean (read (<["loaded" := VBool true]>
                     {["register_implementors" := VBool false]})
                     "register_implementors") = false) by reflexivity.
    destruct (script_frame idle (<["loaded" := VBool true]>
                {["register_implementors" := VBool false]}))
      as (_ & _ & _ & _ & Hother & Hreg & Hwin & _ & _).
    split; [ exact Hv | ].
    split; [ rewrite (Hreg Hv); reflexivity | ].
    split; [ rewrite (Hother Hv "loaded"); [ reflexivity | discriminate ] | ].
    rewrite (Hwin Hv). reflexivity.
  - assert (Hv : ToBoolean (read {["register_implementors" := VFunction 0]}
                     "register_implementors") = true) by reflexivity.
    destruct (script_frame (marking 0) {["register_implementors" := VFunction 0]})
      as (_ & _ & _ & _ & _ & _ & _ & Hwin & Hnone).
    split; [ exact Hv | ].
    split; [ rewrite (Hwin Hv); reflexivity | exact (Hnone Hv) ].
Defined.

(** C7, as stated, fails on a window whose [register_implementors] is a
    function: two executions from that window, on pages where the function
    does nothing and where it sets [loaded], perform the same events and end
    with different windows. *)
Lemma script_final_window_depends_on_callee :
  let w : gmap string value := {["register_implementors" := VFunction 0]} in
  trace (run idle w).2 = trace (run (marking 0) w).2
  ∧ window (run idle w).2 !! "loaded" = None
  ∧ window (run (marking 0) w).2 !! "loaded" = Some (VBool true).
Proof. cbv zeta. repeat split. Qed.

(** C7, amended.  The script is deterministic up to the function it calls.
    On one window, two executions perform the same events in the same
    order, whatever the functions of the page do.  They end with the same
    completion and the same window when [window.register_implementors] is
    not a function, and, when it is one, when that function behaves alike
    in both.  And the value handed over, by call or by assignment, is the
    table: the same constant on every window and every page. *)
Theorem script_deterministic (h1 h2 : host) (w : gmap string value) :
  let v := read w "register_implementors" in
  trace (run h1 w).2 = trace (run h2 w).2
  ∧ ((∀ f, v = VFunction f → h1 f [implementors] w = h2 f [implementors] w) →
     run h1 w = run h2 w)
  ∧ (∀ (h' : host) (w' : gmap string value),
       Forall (eq implementors) (delivered (trace (run h' w').2)))
  ∧ delivered (trace (run h1 w).2)
    = (if ToBoolean v && negb (IsCallable v) then [] else [implementors])
  ∧ (IsCallable v = false → run h1 w = run h2 w).
Proof.
  intros v. split; [ | split; [ | split; [ | split ] ] ].
  - rewrite !run_cases. fold v.
    destruct (ToBoolean v); [ | reflexivity ]. destruct v; reflexivity.
  - intros Hagree. rewrite !run_cases. fold v.
    destruct (ToBoolean v); [ | reflexivity ].
    destruct v eqn:Hv; try reflexivity.
    rewrite (Hagree _ eq_refl). reflexivity.
  - intros h' w'. rewrite run_cases.
    destruct (ToBoolean _); [ | repeat constructor ].
    destruct (read w' _); repeat constructor.
  - rewrite run_cases. fold v.
    destruct (ToBoolean v); [ | reflexivity ]. destruct v; reflexivity.
  - intros Hf. rewrite !run_cases. fold v.
    destruct (ToBoolean v); [ | reflexivity ].
    destruct v; try reflexivity. discriminate Hf.
Qed.

(** Two executions on a window whose [register_implementors] is function
    0, on two pages that differ in what function 1 does and agree on
    function 0. *)
Lemma script_deterministic_witness :
  let w : gmap string value := {["register_implementors" := VFunction 0]} in
  (∀ f, read w "register_implementors" = VFunction f →
        idle f [implementors] w = marking 1 f [implementors] w)
  ∧ run idle w = run (marking 1) w
  ∧ delivered (trace (run idle w).2) = [implementors].
Proof.
  cbv zeta.
  assert (Hagree : ∀ f,
    read {["register_implementors" := VFunction 0]} "register_implementors" = VFunction f →
    idle f [implementors] {["register_implementors" := VFunction 0]}
    = marking 1 f [implementors] {["register_implementors" := VFunction 0]}).
  { intros f Hf. injection Hf as <-. reflexivity. }
  split; [ exact Hagree | ].
  destruct (script_deterministic idle (marking 1)
              {["register_implementors" := VFunction 0]})
    as (_ & Hrun & _ & Hdel & _).
  split; [ exact (Hrun Hagree) | exact Hdel ].
Defined.

(** * Layout of the file *)

(** The body of a string literal denotes the string it was made from. *)
Lemma unescape_escape (s : string) : unescape (escape s) = s.
Proof.
  induction s as [|c s IH]; [ reflexivity | ].
  cbn [escape].
  destruct (Ascii.eqb c dquote || Ascii.eqb c "\"%char) eqn:Hc.
  - cbn [unescape]. rewrite Ascii.eqb_refl, IH. reflexivity.
  - apply orb_false_iff in Hc as [_ Hc].
    cbn [unescape]. rewrite Hc, IH. reflexivity.
Qed.

(** A text has one line more than it has line feeds, so the lines of two
    texts put end to end are the lines of both, less the one they share. *)
Lemma split_on_nonempty (sep : ascii) (s : string) : split_on sep s ≠ [].
Proof.
  destruct s as [|c s]; cbn [split_on]; [ discriminate | ].
  destruct (Ascii.eqb c sep); [ discriminate | ].
  destruct (split_on sep s); discriminate.
Qed.

Lemma lines_app (a b : string) :
  length (lines (a +:+ b)) + 1 = length (lines a) + length (lines b).
Proof.
  unfold lines. induction a as [|c a IH].
  - change (EmptyString +:+ b) with b. cbn [split_on length]. lia.
  - change (String c a +:+ b) with (String c (a +:+ b)). cbn [split_on].
    destruct (Ascii.eqb c LF); cbn [length]; [ lia | ].
    pose proof (split_on_nonempty LF (a +:+ b)) as Hab.
    pose proof (split_on_nonempty LF a) as Ha.
    destruct (split_on LF (a +:+ b)), (split_on LF a); try done.
Qed.

(** C8.  The table has a notation, and the file is that notation between
    the opening of the function and the [if] statement.  The text before
    the table and the text after it have no line break; the notation of the
    table has 5 lines, so it starts on line 1 of the file and ends on line
    5; and the file has 5 lines (and 6071 characters) in all. *)
Theorem implementors_spans_five_lines :
  source_text
  = (λ table, script_open +:+ table +:+ script_close) <$> print_literal implementors
  ∧ length (lines script_open) = 1
  ∧ length (lines script_close) = 1
  ∧ (length ∘ lines) <$> print_literal implementors = Some 5
  ∧ (λ table, length (lines (script_open +:+ table))) <$> print_literal implementors
    = Some 5
  ∧ (length ∘ lines) <$> source_text = Some 5
  ∧ (Z.of_nat ∘ String.length) <$> source_text = Some 6071%Z.
Proof.
  split; [ unfold source_text; destruct (print_literal implementors); reflexivity | ].
  repeat split; vm_compute; reflexivity.
Qed.

(** * Further properties of the script *)

Section Protocol.

Context (h : host) (w : gmap string value).

(** X1.  The script has no handler around the call: when the function in
    [window.register_implementors] throws, the script ends with the same
    exception, the window is as the function left it, and the script does
    not fall back to assigning [window.pending_implementors]. *)
Theorem callee_exception_propagates (f : fn_id) (exn : value) (w' : gmap string value) :
  read w "register_implementors" = VFunction f →
  h f [implementors] w = (Throw exn, w') →
  (run h w).1 = Throw exn
  ∧ window (run h w).2 = w'
  ∧ calls (trace (run h w).2) = [(f, [implementors])]
  ∧ writes (trace (run h w).2) = [].
Proof.
  intros Hf Hcall. rewrite (run_function h w f Hf), Hcall.
  repeat split; reflexivity.
Qed.

(** X2.  Without a registered function, running the script again changes
    nothing: the second run finds the same falsy value, takes the same
    branch, and assigns the same table to the same property. *)
Theorem deferred_run_is_idempotent :
  ToBoolean (read w "register_implementors") = false →
  run h (window (run h w).2) = run h w.
Proof.
  intros Hv. rewrite (run_falsy h w Hv). cbn [snd window].
  assert (Hread : read (<["pending_implementors" := implementors]> w) "register_implementors"
                  = read w "register_implementors").
  { unfold read. by rewrite lookup_insert_ne. }
  rewrite run_falsy by (rewrite Hread; exact Hv).
  rewrite Hread, insert_insert_eq. reflexivity.
Qed.

(** X3.  On the [else] branch the assignment overwrites: afterwards
    [window.pending_implementors] is the table whatever it held before, the
    property names of the window are those it had and [pending_implementors],
    and a window that already had the property has as many as before. *)
Theorem pending_is_overwritten :
  ToBoolean (read w "register_implementors") = false →
  read (window (run h w).2) "pending_implementors" = implementors
  ∧ dom (window (run h w).2) = {["pending_implementors"]} ∪ dom w
  ∧ (is_Some (w !! "pending_implementors") → size (window (run h w).2) = size w)
  ∧ (w !! "pending_implementors" = None → size (window (run h w).2) = S (size w)).
Proof.
  intros Hv. rewrite (run_falsy h w Hv). cbn [snd window].
  split; [ unfold read; by rewrite lookup_insert_eq | ].
  split; [ apply dom_insert_L | ].
  split.
  - intros [old Hold].
    rewrite <- (insert_delete_id w "pending_implementors" old Hold) at 2.
    rewrite <- (insert_delete_eq w).
    rewrite !map_size_insert_None by apply lookup_delete_eq. reflexivity.
  - intros Hnone. by apply map_size_insert_None.
Qed.

End Protocol.

(** X5.  The script reads one property.  Every read in its trace is of
    [register_implementors], and two runs on windows that agree on that
    property perform the same events and hand over the same values, whatever
    else the windows hold and whatever the functions of the pages do. *)
Theorem script_reads_one_property (h1 h2 : host) (w1 w2 : gmap string value) :
  read w1 "register_implementors" = read w2 "register_implementors" →
  trace (run h1 w1).2 = trace (run h2 w2).2
  ∧ delivered (trace (run h1 w1).2) = delivered (trace (run h2 w2).2)
  ∧ (∀ k x, EvGet k x ∈ trace (run h1 w1).2 → k = "register_implementors").
Proof.
  intros Hagree.
  assert (Htrace : trace (run h1 w1).2 = trace (run h2 w2).2).
  { rewrite !run_cases, Hagree.
    destruct (ToBoolean _); [ | reflexivity ].
    destruct (read w2 _); reflexivity. }
  split; [ exact Htrace | ]. split; [ by rewrite Htrace | ].
  intros k x. rewrite run_cases.
  destruct (ToBoolean _); [ destruct (read w1 _) | ]; cbn [snd trace];
    rewrite ?elem_of_cons, elem_of_nil; intros Hin;
    repeat (destruct Hin as [Hin|Hin]; [ congruence | ]); done.
Qed.

(** A window whose function throws; the exception comes out of the run. *)
Lemma callee_exception_propagates_witness :
  let w : gmap string value := {["register_implementors" := VFunction 0]} in
  read w "register_implementors" = VFunction 0
  ∧ failing VNull 0 [implementors] w = (Throw VNull, w)
  ∧ (run (failing VNull) w).1 = Throw VNull
  ∧ writes (trace (run (failing VNull) w).2) = [].
Proof.
  cbv zeta.
  assert (Hf : read {["register_implementors" := VFunction 0]} "register_implementors"
               = VFunction 0) by reflexivity.
  split; [ exact Hf | ]. split; [ reflexivity | ].
  destruct (callee_exception_propagates (failing VNull)
              {["register_implementors" := VFunction 0]} 0 VNull
              {["register_implementors" := VFunction 0]} Hf eq_refl)
    as (Hthrow & _ & _ & Hwrites).
  split; [ exact Hthrow | exact Hwrites ].
Defined.

(** The empty window, run twice. *)
Lemma deferred_run_is_idempotent_witness :
  ToBoolean (read ∅ "register_implementors") = false
  ∧ run idle (window (run idle ∅).2) = run idle ∅.
Proof.
  assert (Hv : ToBoolean (read ∅ "register_implementors") = false) by reflexivity.
  split; [ exact Hv | ].
  exact (deferred_run_is_idempotent idle ∅ Hv).
Defined.

(** Two windows that differ in another property, on two different pages. *)
Lemma script_reads_one_property_witness :
  let w1 : gmap string value := {["register_implementors" := VFunction 0]} in
  let w2 : gmap string value :=
    <["loaded" := VBool true]> {["register_implementors" := VFunction 0]} in
  read w1 "register_implementors" = read w2 "register_implementors"
  ∧ trace (run idle w1).2 = trace (run (failing VNull) w2).2.
Proof.
  cbv zeta.
  assert (Hagree :
    read {["register_implementors" := VFunction 0]} "register_implementors"
    = read (<["loaded" := VBool true]> {["register_implementors" := VFunction 0]})
        "register_implementors") by reflexivity.
  split; [ exact Hagree | ].
  exact (proj1 (script_reads_one_property idle (failing VNull) _ _ Hagree)).
Defined.

(** A window that already holds something in [pending_implementors]. *)
Lemma pending_is_overwritten_witness :
  let w : gmap string value := {["pending_implementors" := VNumber 1]} in
  ToBoolean (read w "register_implementors") = false
  ∧ read (window (run idle w).2) "pending_implementors" = implementors
  ∧ size (window (run idle w).2) = size w.
Proof.
  cbv zeta.
  assert (Hv : ToBoolean (read {["pending_implementors" := VNumber 1]}
                            "register_implementors") = false) by reflexivity.
  split; [ exact Hv | ].
  destruct (pending_is_overwritten idle {["pending_implementors" := VNumber 1]} Hv)
    as (Hread & _ & Hsize & _).
  split; [ exact Hread | ].
  apply Hsize. eexists. reflexivity.
Defined.

(** * Further properties of the table *)

(** X6.  No type is listed twice: the paths of the sixteen entries are
    pairwise distinct, across keys as well as under each key. *)
Theorem implementors_paths_distinct :
  length (omap (λ ce, entry_path (snd ce)) (all_entries implementors)) = 16
  ∧ NoDup (omap (λ ce, entry_path (snd ce)) (all_entries implementors)).
Proof. split; [ reflexivity | ]. vm_compute omap. compute_done. Qed.

(** X7.  Every link of every entry agrees with itself.  Each entry has at
    least two anchors, the trait and the type; the title of an anchor is its
    class followed by the path of an item, its text is the last segment of
    that path, and its target is the page of that item: for the items of
    [core] in the documentation of the standard library, release 1.68.2, for
    the others a relative path that starts with the crate. *)
Theorem implementors_links_consistent :
  Forall (λ ce, ∃ html : string,
            entry_html (snd ce) = Some html
            ∧ forallb consistent (anchors html) = true
            ∧ length (anchors html) = count_sub "<a " html
            ∧ (2 <=? length (anchors html)) = true)
         (all_entries implementors).
Proof. simpl all_entries. each_entry. Qed.

(** The nesting check refuses closing tags that come before their opening
    tags, elements that overlap, an element left open, and an anchor inside
    an anchor. *)
Example nested_refuses :
  map (nested [])
      ["</a></span>x<span c><a c>"; "<a c><span c></a></span>";
       "<a c>x"; "<a c><a c>x</a></a>"]
  = [false; false; false; false]
  ∧ map (nested []) ["<span c>x<a c>y</a>,</span>"; "<a c>x</a><a c>y</a>"]
    = [true; true].
Proof. split; reflexivity. Qed.


(** X9.  An entry bounds exactly its type parameters.  The parameters its
    where-clause bounds are the parameters its header declares, lifetimes
    left out, in the same order (so an entry without type parameters has no
    where-clause), and every bound includes [core::marker::Send]. *)
Theorem implementors_bounds_cover_type_params :
  Forall (λ ce, ∃ html : string,
            entry_html (snd ce) = Some html
            ∧ map fst (where_bounds html) = type_params html
            ∧ bounds_include_send html = true
            ∧ (where_clause html = None ↔ type_params html = []))
         (all_entries implementors).
Proof.
  simpl all_entries.
  repeat first
    [ apply List.Forall_nil
    | apply List.Forall_cons;
      [ eexists; split; [ reflexivity | ];
        split; [ vm_compute; reflexivity | ];
        split; [ vm_compute; reflexivity | ];
        vm_compute; split; intros Heq; first [ reflexivity | discriminate Heq ]
      | ] ].
Qed.
